(** * The decision-caching mutator of [nni.nas.pytorch.mutator]

    A shallow embedding of the class [Mutator] of
    [src/sdk/pynni/nni/nas/pytorch/mutator.py] and the properties of its
    selection, reduction and cache code.

    The embedding follows the Python source method by method:
    - the instance attribute [self._cache] is a field of an explicit state,
      threaded through a state-and-exception monad [M];
    - Python exceptions are values of [Exn], a raising computation returns
      [Raise e] together with the state reached so far;
    - the tensor library and the host model are interfaces ([TorchOps],
      [Host]): the mutator never looks inside a tensor, it only asks for its
      type name, its length, the truth value of its entries and the
      arithmetic operators. *)

From Stdlib Require Import ZArith String Ascii List Bool.
From stdpp Require Import base option list gmap strings pretty.

Local Open Scope Z_scope.

(** ** Strings *)

(** The double-quote character of the two error messages that quote a name. *)
Definition dquote : string :=
  String (Ascii false true false false false true false false) EmptyString.

(** Python's [sub in s] on strings: [sub] occurs in [s] as a substring. *)
Fixpoint contains (sub s : string) : bool :=
  if String.prefix sub s then true
  else match s with
       | EmptyString => false
       | String _ s' => contains sub s'
       end.

(** ** Exceptions and results *)

Inductive Exn : Type :=
| ValueError (msg : string)
| AssertionError (msg : string)
| NotImplementedError
| ZeroDivisionError
| RuntimeError (msg : string).

Inductive Res (A : Type) : Type :=
| Ok (a : A)
| Raise (e : Exn).
Arguments Ok {A} a.
Arguments Raise {A} e.

(** ** Tensor type names

    [mask.type()] is the name torch gives to the tensor type of [mask]: the
    element type followed by [Tensor], under [torch.] for a CPU tensor and
    [torch.cuda.] for a CUDA tensor. The element types are those of torch's
    table of tensor types, the two complex ones, and, under [other_dtype],
    any further one by the name torch prints for it (a sparse layout, a
    quantized type): the mutator only ever sees the name. *)

Inductive dtype : Type :=
| float32 | float64 | float16 | bfloat16
| uint8 | int8 | int16 | int32 | int64
| bool_
| complex64 | complex128
| other_dtype (name : string).

Inductive device : Type := cpu | cuda.

Definition dtype_name (d : dtype) : string :=
  match d with
  | float32 => "Float"
  | float64 => "Double"
  | float16 => "Half"
  | bfloat16 => "BFloat16"
  | uint8 => "Byte"
  | int8 => "Char"
  | int16 => "Short"
  | int32 => "Int"
  | int64 => "Long"
  | bool_ => "Bool"
  | complex64 => "ComplexFloat"
  | complex128 => "ComplexDouble"
  | other_dtype name => name
  end.

Definition device_prefix (d : device) : string :=
  match d with
  | cpu => "torch."
  | cuda => "torch.cuda."
  end.

Definition tensor_type (dev : device) (dt : dtype) : string :=
  device_prefix dev +:+ dtype_name dt +:+ "Tensor".

(** ** The tensor library, as the mutator uses it

    The operators are total here: what torch does on tensors whose shapes do
    not fit (an exception of its own) is not part of this interface. *)

Class TorchOps : Type := {
  (** tensors produced by candidate operations *)
  Tensor : Type;
  (** one entry of a mask, what iterating over a 1-d mask yields *)
  Scalar : Type;
  (** [bool(m)]: the entry is [True], or a number other than zero *)
  truthy : Scalar -> bool;
  (** [t * m] *)
  mul : Tensor -> Scalar -> Tensor;
  (** [n + t] for a Python integer [n], as the first step of [sum] *)
  radd_int : Z -> Tensor -> Tensor;
  (** [t1 + t2] *)
  add : Tensor -> Tensor -> Tensor;
  (** [t / n] for a Python integer [n] *)
  div_int : Tensor -> Z -> Tensor;
  (** [torch.cat(ts, dim=d)] *)
  cat : list Tensor -> Z -> Tensor;
  (** [str(mask)], used by the assertion message *)
  mask_str : device -> dtype -> list Scalar -> string
}.

Section Masks.
Context `{TorchOps}.

(** A decision: a one-dimensional tensor. *)
Record Mask : Type := mkMask {
  mask_device : device;
  mask_dtype : dtype;
  mask_items : list Scalar
}.

(** [mask.type()] *)
Definition type (mask : Mask) : string :=
  tensor_type (mask_device mask) (mask_dtype mask).

(** [len(mask)] *)
Definition mask_len (mask : Mask) : Z := Z.of_nat (length (mask_items mask)).

(** The accumulator of Python's builtin [sum]: it starts as the integer 0
    and becomes a tensor with the first addition. *)
Inductive Num : Type :=
| NInt (n : Z)
| NTensor (t : Tensor).

(** What [_tensor_reduction] can return: the list itself (policy [none]),
    [None], a tensor, and, for completeness of [sum] and [/] on an empty
    list, an integer and the float quotient of two integers. *)
Inductive Value : Type :=
| VList (ts : list Tensor)
| VNone
| VTensor (t : Tensor)
| VInt (n : Z)
| VFloat (num den : Z).
End Masks.

(** ** The host: the model's operations and the concrete mutator

    [sample_search] and [sample_final] are the two extension points; a
    concrete mutator overrides them. They and the candidate operations work
    on [Env], everything of the process that is not the decision cache. *)

Class Host `{TorchOps} : Type := {
  Env : Type;
  (** a candidate operation of a layer choice *)
  Op : Type;
  (** calling the operation on the inputs *)
  apply_op : Op -> list Tensor -> Env -> Res Tensor * Env;
  sample_search : Env -> Res (gmap string Mask) * Env;
  sample_final : Env -> Res (gmap string Mask) * Env
}.

(** The methods as [Mutator] itself defines them: both raise
    [NotImplementedError]. *)
Definition Mutator_sample_search `{TorchOps} {E : Type} (env : E)
  : Res (gmap string Mask) * E := (Raise NotImplementedError, env).
Definition Mutator_sample_final `{TorchOps} {E : Type} (env : E)
  : Res (gmap string Mask) * E := (Raise NotImplementedError, env).

(** ** Choice sites *)

Class Mutable (A : Type) : Type := {
  key : A -> string;
  reduction : A -> string
}.

Record LayerChoice `{Host} : Type := mkLayerChoice {
  lc_key : string;
  choices : list Op;
  lc_reduction : string
}.

Arguments mkLayerChoice {_ _} lc_key choices lc_reduction.

Record InputChoice : Type := mkInputChoice {
  ic_key : string;
  n_candidates : Z;
  ic_reduction : string
}.

#[global] Instance LayerChoice_Mutable `{Host} : Mutable LayerChoice :=
  {| key := lc_key; reduction := lc_reduction |}.
#[global] Instance InputChoice_Mutable : Mutable InputChoice :=
  {| key := ic_key; reduction := ic_reduction |}.

(** ** The mutator's state and its monad *)

(** The one attribute the class owns, [self._cache], next to the rest of the
    process. *)
Record State `{Host} : Type := mkState {
  _cache : gmap string Mask;
  env : Env
}.

Arguments mkState {_ _} _cache env.

Section Monad.
Context `{Host}.

(** A method body: it runs from a state, returns or raises, and leaves a
    state behind. *)
Definition M (A : Type) : Type := State -> Res A * State.

Definition ret {A} (a : A) : M A := fun st => (Ok a, st).

Definition bind {A B} (c : M A) (k : A -> M B) : M B :=
  fun st =>
    match c st with
    | (Ok a, st') => k a st'
    | (Raise e, st') => (Raise e, st')
    end.

Definition raise {A} (e : Exn) : M A := fun st => (Raise e, st).

(** reading [self._cache] *)
Definition get_cache : M (gmap string Mask) := fun st => (Ok (_cache st), st).

(** the assignment [self._cache = d] *)
Definition set_cache (d : gmap string Mask) : M unit :=
  fun st => (Ok tt, {| _cache := d; env := env st |}).

(** a call into the host: it sees and changes [env] only *)
Definition call {A} (f : Env -> Res A * Env) : M A :=
  fun st =>
    let (r, e') := f (env st) in
    (r, {| _cache := _cache st; env := e' |}).

(** a pure helper that may raise *)
Definition lift {A} (r : Res A) : M A := fun st => (r, st).

(** [assert c, msg] *)
Definition assert_ (c : bool) (msg : string) : M unit :=
  if c then ret tt else raise (AssertionError msg).
End Monad.

Notation "'let*' x ':=' c 'in' k" := (bind c (fun x => k))
  (at level 10, x name, c at level 100, k at level 200).

(** ** The class [Mutator] *)

Section Mutator.
Context `{Host}.

(** [__init__]: the cache starts as the empty dict. *)
Definition Mutator__init__ (e : Env) : State := {| _cache := ∅; env := e |}.

(** [reset]: [self._cache = self.sample_search()] *)
Definition reset : M unit :=
  let* d := call sample_search in
  set_cache d.

(** [export]: [return self.sample_final()] *)
Definition export : M (gmap string Mask) :=
  call sample_final.

(** [_get_decision]: the membership test and the subscript are one lookup
    of the dict; the debug log line has no effect on the state. *)
Definition _get_decision {A} `{Mutable A} (mutable : A) : M Mask :=
  let* cache := get_cache in
  match cache !! key mutable with
  | None =>
      raise (ValueError (dquote +:+ key mutable +:+ dquote
                         +:+ " not found in decision cache."))
  | Some result => ret result
  end.

(** The list comprehension of [_select_with_mask],
    one output per pair [cand, m] of [pairs] whose [m] is true: the pairs
    are visited in order, [post] is the identity for a boolean mask and
    the multiplication by the weight for a float mask. *)
Fixpoint comprehension {C} (post : Tensor -> Scalar -> Tensor)
    (map_fn : C -> M Tensor) (pairs : list (C * Scalar)) : M (list Tensor) :=
  match pairs with
  | [] => ret []
  | (cand, m) :: rest =>
      if truthy m then
        let* y := map_fn cand in
        let* out := comprehension post map_fn rest in
        ret (post y m :: out)
      else comprehension post map_fn rest
  end.

(** Python's [zip] of two lists stops with the shorter one. *)
Definition zip {A B} (xs : list A) (ys : list B) : list (A * B) := combine xs ys.

Definition _select_with_mask {C} (map_fn : C -> M Tensor)
    (candidates : list C) (mask : Mask) : M (list Tensor) :=
  if contains "BoolTensor" (type mask) then
    comprehension (fun y _ => y) map_fn (zip candidates (mask_items mask))
  else if contains "FloatTensor" (type mask) then
    comprehension (fun y m => mul y m) map_fn (zip candidates (mask_items mask))
  else raise (ValueError "Unrecognized mask").

Definition py_add (acc : Num) (t : Tensor) : Num :=
  match acc with
  | NInt n => NTensor (radd_int n t)
  | NTensor a => NTensor (add a t)
  end.

(** [sum(tensor_list)] *)
Definition py_sum (tensor_list : list Tensor) : Num :=
  fold_left py_add tensor_list (NInt 0).

(** the result of [sum] as a returned value *)
Definition py_value (x : Num) : Value :=
  match x with
  | NInt n => VInt n
  | NTensor t => VTensor t
  end.

(** [x / n] for the result [x] of [sum] and an integer [n] *)
Definition py_truediv (x : Num) (n : Z) : Res Value :=
  match x with
  | NTensor t => Ok (VTensor (div_int t n))
  | NInt a => if n =? 0 then Raise ZeroDivisionError else Ok (VFloat a n)
  end.

Definition _tensor_reduction (reduction_type : string)
    (tensor_list : list Tensor) : Res Value :=
  if String.eqb reduction_type "none" then Ok (VList tensor_list)
  else match tensor_list with
  | [] => Ok VNone
  | [t] => Ok (VTensor t)
  | _ =>
      if String.eqb reduction_type "sum" then
        Ok (py_value (py_sum tensor_list))
      else if String.eqb reduction_type "mean" then
        py_truediv (py_sum tensor_list) (Z.of_nat (length tensor_list))
      else if String.eqb reduction_type "concat" then
        Ok (VTensor (cat tensor_list 1))
      else
        Raise (ValueError ("Unrecognized reduction policy: " +:+ dquote
                           +:+ reduction_type +:+ dquote))
  end.

(** The text of the two length assertions. *)
Definition invalid_mask_msg (mask : Mask) (n : Z) : string :=
  "Invalid mask, expected "
  +:+ mask_str (mask_device mask) (mask_dtype mask) (mask_items mask)
  +:+ " to be of length " +:+ pretty n +:+ ".".

(** The local function [_map_fn] of [on_forward_layer_choice]: it calls
    the operation, the first component of the tuple, on the inputs. *)
Definition _map_fn (cand : Op * list Tensor) : M Tensor :=
  call (apply_op (fst cand) (snd cand)).

Definition on_forward_layer_choice (mutable : LayerChoice)
    (inputs : list Tensor) : M (Value * Mask) :=
  let* mask := _get_decision mutable in
  let* _ := assert_ (mask_len mask =? Z.of_nat (length (choices mutable)))
              (invalid_mask_msg mask (Z.of_nat (length (choices mutable)))) in
  let* out := _select_with_mask _map_fn
                (map (fun choice => (choice, inputs)) (choices mutable)) mask in
  let* r := lift (_tensor_reduction (reduction mutable) out) in
  ret (r, mask).

Definition on_forward_input_choice (mutable : InputChoice)
    (tensor_list : list Tensor) : M (Value * Mask) :=
  let* mask := _get_decision mutable in
  let* _ := assert_ (mask_len mask =? n_candidates mutable)
              (invalid_mask_msg mask (n_candidates mutable)) in
  let* out := _select_with_mask (fun x => ret x) tensor_list mask in
  let* r := lift (_tensor_reduction (reduction mutable) out) in
  ret (r, mask).
End Mutator.

(** ** Vocabulary of the properties *)

Section Vocabulary.
Context {T : TorchOps} {Hst : Host}.

(** Running [f] on each element of a list, first to last, and collecting
    the results; the first exception stops the run. *)
Fixpoint for_each {A B} (f : A -> M B) (l : list A) : M (list B) :=
  match l with
  | [] => ret []
  | a :: l' =>
      let* b := f a in
      let* bs := for_each f l' in
      ret (b :: bs)
  end.

(** The candidates a mask keeps, each with its mask entry: position [i] is
    kept when the mask entry at [i] is true, and the positions are listed
    in increasing order. *)
Definition kept {C} (candidates : list C) (items : list Scalar)
  : list (C * Scalar) :=
  omap (fun i =>
          match candidates !! i, items !! i with
          | Some c, Some m => if truthy m then Some (c, m) else None
          | _, _ => None
          end)
       (seq 0 (length items)).

Definition selected {C} (candidates : list C) (items : list Scalar) : list C :=
  map fst (kept candidates items).

(** A [map_fn] that only computes. *)
Definition pure_fn {C} (f : C -> Tensor) : C -> M Tensor := fun c => ret (f c).

(** A mask cut down to its first [k] entries. *)
Definition truncate (k : nat) (mask : Mask) : Mask :=
  {| mask_device := mask_device mask;
     mask_dtype := mask_dtype mask;
     mask_items := take k (mask_items mask) |}.

(** The exception of [_get_decision] for a key that is not cached. *)
Definition cache_miss (k : string) : Exn :=
  ValueError (dquote +:+ k +:+ dquote +:+ " not found in decision cache.").

(** The exception of [_tensor_reduction] for a policy it does not know. *)
Definition unrecognized_policy (policy : string) : Exn :=
  ValueError ("Unrecognized reduction policy: " +:+ dquote +:+ policy +:+ dquote).

Definition known_policy (policy : string) : Prop :=
  policy = "none" \/ policy = "sum" \/ policy = "mean" \/ policy = "concat".

(** The candidate tuples a layer choice builds from its operations. *)
Definition layer_candidates (mutable : LayerChoice) (inputs : list Tensor)
  : list (Op * list Tensor) :=
  map (fun choice => (choice, inputs)) (choices mutable).

(** The last two statements of a forward callback: selection, then
    reduction, returned with the mask. *)
Definition select_and_reduce {C} (map_fn : C -> M Tensor)
    (candidates : list C) (mask : Mask) (policy : string) : M (Value * Mask) :=
  let* out := _select_with_mask map_fn candidates mask in
  let* r := lift (_tensor_reduction policy out) in
  ret (r, mask).

(** What [on_forward_layer_choice] does once the lookup has returned
    [mask]: the length assertion, then selection and reduction. *)
Definition layer_choice_with (mutable : LayerChoice) (inputs : list Tensor)
    (mask : Mask) : M (Value * Mask) :=
  let* _ := assert_ (mask_len mask =? Z.of_nat (length (choices mutable)))
              (invalid_mask_msg mask (Z.of_nat (length (choices mutable)))) in
  select_and_reduce _map_fn (layer_candidates mutable inputs) mask
    (reduction mutable).

(** The same for [on_forward_input_choice]. *)
Definition input_choice_with (mutable : InputChoice)
    (tensor_list : list Tensor) (mask : Mask) : M (Value * Mask) :=
  let* _ := assert_ (mask_len mask =? n_candidates mutable)
              (invalid_mask_msg mask (n_candidates mutable)) in
  select_and_reduce (fun x => ret x) tensor_list mask (reduction mutable).

(** A computation that leaves a part [proj] of the state as it found it:
    the decision cache for [proj := _cache], the whole state for the
    identity. *)
Definition preserves {X A} (proj : State -> X) (c : M A) : Prop :=
  forall st, proj (snd (c st)) = proj st.

(** The sum of a tensor [t] and further tensors, as [0 + t + ...]. *)
Definition tensor_sum (t : Tensor) (ts : list Tensor) : Tensor :=
  fold_left add ts (radd_int 0 t).

(** A result of [_tensor_reduction], returned together with the mask. *)
Definition with_mask (mask : Mask) (r : Res Value) : Res (Value * Mask) :=
  match r with
  | Ok v => Ok (v, mask)
  | Raise e => Raise e
  end.

(** The tensors a float mask keeps, each multiplied by its weight. *)
Definition weighted (tensors : list Tensor) (items : list Scalar) : list Tensor :=
  map (fun p => mul (fst p) (snd p)) (kept tensors items).

(** The two tags [_select_with_mask] looks for in the type name. *)
Definition bool_tagged (mask : Mask) : bool := contains "BoolTensor" (type mask).
Definition float_tagged (mask : Mask) : bool := contains "FloatTensor" (type mask).


(** The survivors among tensors that are already computed, by the tag of
    the mask's type name: the boolean tag is looked for first. *)
Definition select_tensors (tensors : list Tensor) (mask : Mask)
  : Res (list Tensor) :=
  if bool_tagged mask then Ok (selected tensors (mask_items mask))
  else if float_tagged mask then Ok (weighted tensors (mask_items mask))
  else Raise (ValueError "Unrecognized mask").

(** The outcome of an input choice, read off the cache entry of its key:
    no entry, an entry of the wrong length, an entry of an unknown type, or
    the reduction of the survivors. *)
Definition input_choice_result (mutable : InputChoice)
    (tensor_list : list Tensor) (entry : option Mask) : Res (Value * Mask) :=
  match entry with
  | None => Raise (cache_miss (key mutable))
  | Some mask =>
      if mask_len mask =? n_candidates mutable then
        match select_tensors tensor_list mask with
        | Ok out => with_mask mask (_tensor_reduction (reduction mutable) out)
        | Raise e => Raise e
        end
      else Raise (AssertionError (invalid_mask_msg mask (n_candidates mutable)))
  end.

(** Calling one candidate operation on the inputs of a layer choice. *)
Definition run_choice (inputs : list Tensor) (choice : Op) : M Tensor :=
  call (apply_op choice inputs).

(** Reducing the outputs of a run and returning the result with the mask. *)
Definition reduce_with (policy : string) (mask : Mask) (run : M (list Tensor))
  : M (Value * Mask) :=
  let* out := run in
  let* r := lift (_tensor_reduction policy out) in
  ret (r, mask).

(** A list of mask entries none of which selects. *)
Definition all_false (items : list Scalar) : Prop :=
  forall m, In m items -> truthy m = false.
End Vocabulary.

(** ** A small instance: integer vectors as tensors

    Used to run the methods on concrete inputs. A tensor is a vector of
    integers, the operators work entry by entry, and the environment is the
    list of the operations called so far. *)

Module IntTorch.
Definition vec_add (a b : list Z) : list Z := zip_with Z.add a b.

#[export] Instance ops : TorchOps := {|
  Tensor := list Z;
  Scalar := Z;
  truthy := fun m => negb (m =? 0);
  mul := fun t m => map (fun x => x * m) t;
  radd_int := fun n t => map (fun x => n + x) t;
  add := vec_add;
  div_int := fun t n => map (fun x => x / n) t;
  cat := fun ts _ => concat ts;
  mask_str := fun _ _ items => "tensor of " +:+ pretty (length items)
|}.

Inductive op : Type :=
| Times (k : Z)
| Broken.

Definition run_op (o : op) (inputs : list (list Z)) (log : list op)
  : Res (list Z) * list op :=
  match o with
  | Times k => (Ok (map (fun x => k * x) (concat inputs)), log ++ [o])
  | Broken => (Raise (RuntimeError "broken operation"), log ++ [o])
  end.

Definition bool_mask (items : list Z) : Mask := mkMask cpu bool_ items.
Definition float_mask (items : list Z) : Mask := mkMask cuda float32 items.
Definition long_mask (items : list Z) : Mask := mkMask cpu int64 items.

Definition searched : gmap string Mask :=
  <["layer" := bool_mask [1; 0; 1]]> (<["input" := float_mask [0; 3]]> ∅).

Definition final : gmap string Mask :=
  <["layer" := bool_mask [0; 1; 0]]> (<["input" := float_mask [1; 0]]> ∅).

#[export] Instance host : Host := {|
  Env := list op;
  Op := op;
  apply_op := run_op;
  sample_search := fun log => (Ok searched, log);
  sample_final := fun log => (Ok final, log)
|}.

Definition layer : LayerChoice := mkLayerChoice "layer" [Times 2; Broken; Times 5] "sum".
Definition short_layer : LayerChoice := mkLayerChoice "layer" [Times 2] "sum".
Definition input : InputChoice := mkInputChoice "input" 2 "mean".
Definition absent : InputChoice := mkInputChoice "nowhere" 2 "none".

Definition fresh : State := Mutator__init__ [].
Definition sampled : State := mkState searched [].

(** A layer choice whose middle operation alone works, and the state after
    the final decisions were stored. *)
Definition middle_layer : LayerChoice :=
  mkLayerChoice "layer" [Broken; Times 3; Broken] "concat".
Definition exported : State := mkState final [].

(** Caches with a mask that selects nothing, and with an integer mask. *)
Definition unselected : State :=
  mkState (<["layer" := bool_mask [0; 0; 0]]> ∅) [].
Definition mistyped : State :=
  mkState (<["layer" := long_mask [1; 0; 1]]> ∅) [].

(** A cache with weights for the layer choice. *)
Definition weighed : State :=
  mkState (<["layer" := float_mask [2; 0; 3]]> ∅) [].

(** A mutator that does not override the two extension points. *)
Definition base_host : Host := {|
  Env := list op;
  Op := op;
  apply_op := run_op;
  sample_search := Mutator_sample_search;
  sample_final := Mutator_sample_final
|}.
Definition stale : @State ops base_host := @mkState ops base_host searched [].
End IntTorch.

(** * Properties *)

(** ** Tensor type names and the two substring tests *)

Lemma bool_type_name dev : contains "BoolTensor" (tensor_type dev bool_) = true.
Proof. destruct dev; reflexivity. Qed.

Lemma float_type_name dev :
  contains "BoolTensor" (tensor_type dev float32) = false
  /\ contains "FloatTensor" (tensor_type dev float32) = true.
Proof. destruct dev; split; reflexivity. Qed.



Section Properties.
Context {T : TorchOps} {Hst : Host}.

(** ** The monad *)

Lemma bind_ret_r {A} (c : M A) st : bind c ret st = c st.
Proof. unfold bind, ret. destruct (c st) as [[a|e] st']; reflexivity. Qed.

Lemma for_each_pure {A B} (f : A -> B) (l : list A) st :
  for_each (fun a => ret (f a)) l st = (Ok (map f l), st).
Proof.
  induction l as [|a l IH]; simpl; [reflexivity|].
  unfold bind, ret in *. rewrite IH. reflexivity.
Qed.

Lemma for_each_fst {A B D} (f : A -> M D) (l : list (A * B)) st :
  for_each (fun p => let* y := f (fst p) in ret y) l st
  = for_each f (map fst l) st.
Proof.
  revert st. induction l as [|[a b] l IH]; intros st; simpl; [reflexivity|].
  unfold bind, ret in *.
  destruct (f a st) as [[y|e] st']; [|reflexivity].
  rewrite IH. reflexivity.
Qed.

(** Only the elements of the list decide what [for_each] does. *)
Lemma for_each_ext {A B} (f g : A -> M B) (l : list A) :
  (forall a st, In a l -> f a st = g a st) ->
  forall st, for_each f l st = for_each g l st.
Proof.
  induction l as [|a l IH]; intros Hfg st; simpl; [reflexivity|].
  unfold bind. rewrite (Hfg a st) by (left; reflexivity).
  destruct (g a st) as [[b|e] st']; [|reflexivity].
  rewrite IH; [reflexivity|].
  intros a' st'' Hin. apply Hfg. right. exact Hin.
Qed.

(** ** Positions kept by a mask *)

Lemma omap_seq_shift {B} (f : nat -> option B) start n :
  omap f (seq (S start) n) = omap (fun i => f (S i)) (seq start n).
Proof.
  revert start. induction n as [|n IH]; intros start; simpl; [reflexivity|].
  rewrite IH. reflexivity.
Qed.

Lemma kept_nil_l {C} (items : list Scalar) : kept (@nil C) items = [].
Proof.
  unfold kept. generalize (seq 0 (length items)).
  induction l as [|i l IH]; simpl; [reflexivity|assumption].
Qed.

Lemma kept_cons {C} (c : C) cs m ms :
  kept (c :: cs) (m :: ms)
  = (if truthy m then [(c, m)] else []) ++ kept cs ms.
Proof.
  unfold kept. simpl length. simpl seq. simpl omap.
  rewrite omap_seq_shift. simpl.
  destruct (truthy m); reflexivity.
Qed.

(** The comprehension visits exactly the kept positions. *)
Lemma comprehension_kept {C} post (map_fn : C -> M Tensor) candidates items st :
  comprehension post map_fn (zip candidates items) st
  = for_each (fun p => let* y := map_fn (fst p) in ret (post y (snd p)))
      (kept candidates items) st.
Proof.
  revert items st. induction candidates as [|c cs IH]; intros items st.
  - rewrite kept_nil_l. reflexivity.
  - destruct items as [|m ms]; [reflexivity|].
    rewrite kept_cons. simpl.
    destruct (truthy m); simpl; [|apply IH].
    unfold bind, ret in *.
    destruct (map_fn c st) as [[y|e] st']; [|reflexivity].
    rewrite IH. reflexivity.
Qed.

Lemma kept_truncate {C} (candidates : list C) (items : list Scalar) :
  kept (take (min (length candidates) (length items)) candidates)
       (take (min (length candidates) (length items)) items)
  = kept candidates items.
Proof.
  revert items. induction candidates as [|c cs IH]; intros items.
  - simpl. rewrite !kept_nil_l. reflexivity.
  - destruct items as [|m ms]; [reflexivity|].
    simpl. rewrite !kept_cons, IH. reflexivity.
Qed.

Lemma zip_truncate {A B} (xs : list A) (ys : list B) :
  zip (take (min (length xs) (length ys)) xs)
      (take (min (length xs) (length ys)) ys) = zip xs ys.
Proof.
  unfold zip. revert ys. induction xs as [|x xs IH]; intros [|y ys]; simpl;
    try reflexivity.
  f_equal. apply IH.
Qed.

Lemma select_bool {C} (map_fn : C -> M Tensor) candidates mask st :
  mask_dtype mask = bool_ ->
  _select_with_mask map_fn candidates mask st
  = comprehension (fun y _ => y) map_fn (zip candidates (mask_items mask)) st.
Proof.
  intros Hd. unfold _select_with_mask, type. rewrite Hd, bool_type_name.
  reflexivity.
Qed.

Lemma select_float {C} (map_fn : C -> M Tensor) candidates mask st :
  mask_dtype mask = float32 ->
  _select_with_mask map_fn candidates mask st
  = comprehension (fun y m => mul y m) map_fn (zip candidates (mask_items mask)) st.
Proof.
  intros Hd. unfold _select_with_mask, type. rewrite Hd.
  destruct (float_type_name (mask_device mask)) as [-> ->]. reflexivity.
Qed.

(** ** Selection *)

(** C1. With a boolean-typed mask of length N and N candidates,
    [_select_with_mask] is the run of [map_fn] over the candidates at the
    positions where the mask is true, in the order of the candidates: it
    returns their outputs, and no other candidate is handed to [map_fn]
    (the whole computation, effects included, is that run, and what
    [map_fn] would do on the other candidates changes nothing). For a
    [map_fn] that only computes, the result is the list of its values on
    the selected candidates and the state is untouched. *)
Theorem select_with_mask_bool {C} (map_fn : C -> M Tensor)
    (candidates : list C) (mask : Mask) :
  mask_dtype mask = bool_ ->
  length (mask_items mask) = length candidates ->
  (forall st,
      _select_with_mask map_fn candidates mask st
      = for_each map_fn (selected candidates (mask_items mask)) st)
  /\ (forall (f : C -> Tensor) st,
        _select_with_mask (pure_fn f) candidates mask st
        = (Ok (map f (selected candidates (mask_items mask))), st))
  /\ (forall map_fn' : C -> M Tensor,
        (forall c st, In c (selected candidates (mask_items mask)) ->
                      map_fn' c st = map_fn c st) ->
        forall st,
          _select_with_mask map_fn' candidates mask st
          = _select_with_mask map_fn candidates mask st).
Proof.
  intros Hd _.
  assert (Hrun : forall (g : C -> M Tensor) st,
             _select_with_mask g candidates mask st
             = for_each g (selected candidates (mask_items mask)) st).
  { intros g st. rewrite select_bool by exact Hd.
    rewrite comprehension_kept. apply for_each_fst. }
  split; [exact (Hrun map_fn)|]. split.
  - intros f st. rewrite Hrun. apply for_each_pure.
  - intros map_fn' Hsame st. rewrite !Hrun. apply for_each_ext. exact Hsame.
Qed.

(** C2. With a float-typed mask and as many candidates, the result lists,
    in the order of the candidates, the output of each candidate whose
    weight is not zero multiplied by that weight; [map_fn] runs on those
    candidates only, and what it would do on a candidate of weight zero
    changes nothing. *)
Theorem select_with_mask_float {C} (map_fn : C -> M Tensor)
    (candidates : list C) (mask : Mask) :
  mask_dtype mask = float32 ->
  length (mask_items mask) = length candidates ->
  (forall st,
      _select_with_mask map_fn candidates mask st
      = for_each (fun p => let* y := map_fn (fst p) in ret (mul y (snd p)))
          (kept candidates (mask_items mask)) st)
  /\ (forall (f : C -> Tensor) st,
        _select_with_mask (pure_fn f) candidates mask st
        = (Ok (map (fun p => mul (f (fst p)) (snd p))
                 (kept candidates (mask_items mask))), st))
  /\ (forall map_fn' : C -> M Tensor,
        (forall c st, In c (selected candidates (mask_items mask)) ->
                      map_fn' c st = map_fn c st) ->
        forall st,
          _select_with_mask map_fn' candidates mask st
          = _select_with_mask map_fn candidates mask st).
Proof.
  intros Hd _.
  assert (Hrun : forall (g : C -> M Tensor) st,
             _select_with_mask g candidates mask st
             = for_each (fun p => let* y := g (fst p) in ret (mul y (snd p)))
                 (kept candidates (mask_items mask)) st).
  { intros g st. rewrite select_float by exact Hd. apply comprehension_kept. }
  split; [exact (Hrun map_fn)|]. split.
  - intros f st. rewrite Hrun.
    rewrite <- (for_each_pure (fun p => mul (f (fst p)) (snd p))).
    reflexivity.
  - intros map_fn' Hsame st. rewrite !Hrun. apply for_each_ext.
    intros p st' Hin. unfold bind. rewrite Hsame; [reflexivity|].
    unfold selected. apply in_map. exact Hin.
Qed.



(** C10. [_select_with_mask] checks no length: with a boolean- or
    float-typed mask and a candidate list of any length, it raises nothing
    of its own and returns the selection made over the first
    [k = min (len(candidates)) (len(mask))] candidates and mask entries:
    for a boolean mask the outputs of the candidates among the first [k]
    whose entry is true, for a float mask the outputs of those among the
    first [k] whose weight is not zero, each multiplied by its weight. The
    surplus of the longer list is ignored: the call is the call on the two
    lists cut to length [k]. *)
Theorem select_with_mask_no_length_check {C} (map_fn : C -> M Tensor)
    (candidates : list C) (mask : Mask) :
  mask_dtype mask = bool_ \/ mask_dtype mask = float32 ->
  let k := min (length candidates) (length (mask_items mask)) in
  (forall st,
      _select_with_mask map_fn candidates mask st
      = _select_with_mask map_fn (take k candidates) (truncate k mask) st)
  /\ (forall (f : C -> Tensor) st,
        exists out, _select_with_mask (pure_fn f) candidates mask st = (Ok out, st))
  /\ (mask_dtype mask = bool_ ->
      (forall st,
          _select_with_mask map_fn candidates mask st
          = for_each map_fn
              (selected (take k candidates) (take k (mask_items mask))) st)
      /\ (forall (f : C -> Tensor) st,
            _select_with_mask (pure_fn f) candidates mask st
            = (Ok (map f (selected (take k candidates)
                            (take k (mask_items mask)))), st)))
  /\ (mask_dtype mask = float32 ->
      (forall st,
          _select_with_mask map_fn candidates mask st
          = for_each (fun p => let* y := map_fn (fst p) in ret (mul y (snd p)))
              (kept (take k candidates) (take k (mask_items mask))) st)
      /\ (forall (f : C -> Tensor) st,
            _select_with_mask (pure_fn f) candidates mask st
            = (Ok (map (fun p => mul (f (fst p)) (snd p))
                     (kept (take k candidates) (take k (mask_items mask)))),
               st))).
Proof.
  intros Hd k.
  assert (Hk : kept (take k candidates) (take k (mask_items mask))
               = kept candidates (mask_items mask))
    by (subst k; apply kept_truncate).
  split; [|split; [|split]].
  - intros st. destruct Hd as [Hd|Hd].
    + rewrite !select_bool by exact Hd. simpl. subst k.
      rewrite zip_truncate. reflexivity.
    + rewrite !select_float by exact Hd. simpl. subst k.
      rewrite zip_truncate. reflexivity.
  - intros f st. destruct Hd as [Hd|Hd].
    + rewrite select_bool by exact Hd. rewrite comprehension_kept.
      exists (map (fun p => f (fst p)) (kept candidates (mask_items mask))).
      rewrite <- (for_each_pure (fun p => f (fst p))). reflexivity.
    + rewrite select_float by exact Hd. rewrite comprehension_kept.
      exists (map (fun p => mul (f (fst p)) (snd p))
                (kept candidates (mask_items mask))).
      rewrite <- (for_each_pure (fun p => mul (f (fst p)) (snd p))).
      reflexivity.
  - intros Hb.
    assert (Hrun : forall (g : C -> M Tensor) st,
               _select_with_mask g candidates mask st
               = for_each g (selected (take k candidates)
                               (take k (mask_items mask))) st).
    { intros g st. rewrite select_bool by exact Hb.
      rewrite comprehension_kept. unfold selected. rewrite Hk.
      apply for_each_fst. }
    split; [exact (Hrun map_fn)|].
    intros f st. rewrite Hrun. apply for_each_pure.
  - intros Hf.
    assert (Hrun : forall (g : C -> M Tensor) st,
               _select_with_mask g candidates mask st
               = for_each (fun p => let* y := g (fst p) in ret (mul y (snd p)))
                   (kept (take k candidates) (take k (mask_items mask))) st).
    { intros g st. rewrite select_float by exact Hf. rewrite Hk.
      apply comprehension_kept. }
    split; [exact (Hrun map_fn)|].
    intros f st. rewrite Hrun.
    rewrite <- (for_each_pure (fun p => mul (f (fst p)) (snd p))).
    reflexivity.
Qed.
End Properties.

(** ** Reduction *)

Section Reduction.
Context {T : TorchOps}.

Lemma fold_py_add (ts : list Tensor) (a : Tensor) :
  fold_left py_add ts (NTensor a) = NTensor (fold_left add ts a).
Proof.
  revert a. induction ts as [|t ts IH]; intros a; simpl; [reflexivity|].
  apply IH.
Qed.

(** [sum] of a non-empty list of tensors is a tensor. *)
Lemma py_sum_cons (t : Tensor) (ts : list Tensor) :
  py_sum (t :: ts) = NTensor (tensor_sum t ts).
Proof. unfold py_sum, tensor_sum. simpl. apply fold_py_add. Qed.

Lemma tensor_reduction_none (tensor_list : list Tensor) :
  _tensor_reduction "none" tensor_list = Ok (VList tensor_list).
Proof. reflexivity. Qed.

Lemma not_none_eqb (policy : string) :
  policy <> "none" -> String.eqb policy "none" = false.
Proof. intros Hn. apply String.eqb_neq. exact Hn. Qed.

(** C3, amended. For every reduction policy other than [none] (known or
    not), the empty list reduces to [None] and a one-element list to its
    element, unreduced; under [none] the list itself is returned, also
    when it is empty or has one element. *)
Theorem tensor_reduction_few (policy : string) :
  (policy <> "none" ->
   _tensor_reduction policy [] = Ok VNone
   /\ forall t : Tensor, _tensor_reduction policy [t] = Ok (VTensor t))
  /\ (forall tensor_list : list Tensor,
        _tensor_reduction "none" tensor_list = Ok (VList tensor_list)).
Proof.
  split; [|exact tensor_reduction_none].
  intros Hn. unfold _tensor_reduction. rewrite (not_none_eqb _ Hn).
  split; reflexivity.
Qed.

(** C4. On a list of two or more tensors, [sum] returns their sum
    [0 + t1 + t2 + ...], [mean] that sum divided by the number of tensors,
    [concat] their concatenation along dimension 1, and [none] the list
    unchanged. *)
Theorem tensor_reduction_many (t1 t2 : Tensor) (rest : list Tensor) :
  let tensor_list := t1 :: t2 :: rest in
  _tensor_reduction "sum" tensor_list
  = Ok (VTensor (tensor_sum t1 (t2 :: rest)))
  /\ _tensor_reduction "mean" tensor_list
     = Ok (VTensor (div_int (tensor_sum t1 (t2 :: rest))
                      (Z.of_nat (length tensor_list))))
  /\ _tensor_reduction "concat" tensor_list = Ok (VTensor (cat tensor_list 1))
  /\ _tensor_reduction "none" tensor_list = Ok (VList tensor_list).
Proof.
  intros tensor_list. unfold _tensor_reduction. subst tensor_list.
  cbn [String.eqb Ascii.eqb Bool.eqb andb].
  rewrite !py_sum_cons. repeat split; reflexivity.
Qed.

(** C5, amended. A policy name that is none of [none], [sum], [mean],
    [concat] makes [_tensor_reduction] raise the unrecognized-policy
    [ValueError] on every list of two or more tensors; on the empty list
    it returns [None] and on a one-element list the element, without an
    error. *)
Theorem tensor_reduction_unknown_policy (policy : string) :
  ~ known_policy policy ->
  (forall (t1 t2 : Tensor) rest,
      _tensor_reduction policy (t1 :: t2 :: rest)
      = Raise (unrecognized_policy policy))
  /\ _tensor_reduction policy [] = Ok VNone
  /\ (forall t : Tensor, _tensor_reduction policy [t] = Ok (VTensor t)).
Proof.
  intros Hk. unfold known_policy in Hk.
  assert (Hnone : String.eqb policy "none" = false)
    by (apply String.eqb_neq; tauto).
  assert (Hsum : String.eqb policy "sum" = false)
    by (apply String.eqb_neq; tauto).
  assert (Hmean : String.eqb policy "mean" = false)
    by (apply String.eqb_neq; tauto).
  assert (Hcat : String.eqb policy "concat" = false)
    by (apply String.eqb_neq; tauto).
  unfold _tensor_reduction. rewrite Hnone, Hsum, Hmean, Hcat.
  repeat split; reflexivity.
Qed.
End Reduction.

(** ** The decision cache *)

Create HintDb frame.

Section Cache.
Context {T : TorchOps} {Hst : Host}.

(** *** What each step leaves untouched *)

Lemma preserves_ret {X A} (proj : State -> X) (a : A) : preserves proj (ret a).
Proof. intros st. reflexivity. Qed.

Lemma preserves_raise {X A} (proj : State -> X) e : preserves proj (@raise _ _ A e).
Proof. intros st. reflexivity. Qed.

Lemma preserves_lift {X A} (proj : State -> X) (r : Res A) : preserves proj (lift r).
Proof. intros st. reflexivity. Qed.

Lemma preserves_get_cache {X} (proj : State -> X) : preserves proj get_cache.
Proof. intros st. reflexivity. Qed.

Lemma preserves_assert {X} (proj : State -> X) c msg : preserves proj (assert_ c msg).
Proof. intros st. destruct c; reflexivity. Qed.

(** A call into the host cannot reach the cache. *)
Lemma preserves_call {A} (f : Env -> Res A * Env) : preserves _cache (call f).
Proof. intros st. unfold call. destruct (f (env st)); reflexivity. Qed.

Lemma preserves_bind {X A B} (proj : State -> X) (c : M A) (k : A -> M B) :
  preserves proj c -> (forall a, preserves proj (k a)) -> preserves proj (bind c k).
Proof.
  intros Hc Hk st. unfold bind. specialize (Hc st).
  destruct (c st) as [[a|e] st']; simpl in *.
  - rewrite Hk. exact Hc.
  - exact Hc.
Qed.

Lemma preserves_comprehension {X C} (proj : State -> X) post
    (map_fn : C -> M Tensor) pairs :
  (forall c, preserves proj (map_fn c)) ->
  preserves proj (comprehension post map_fn pairs).
Proof.
  intros Hf. induction pairs as [|[c m] rest IH]; simpl.
  - apply preserves_ret.
  - destruct (truthy m); [|exact IH].
    apply preserves_bind; [apply Hf|]. intros y.
    apply preserves_bind; [exact IH|]. intros out. apply preserves_ret.
Qed.

Lemma preserves_select {X C} (proj : State -> X) (map_fn : C -> M Tensor)
    candidates mask :
  (forall c, preserves proj (map_fn c)) ->
  preserves proj (_select_with_mask map_fn candidates mask).
Proof.
  intros Hf. unfold _select_with_mask.
  destruct (contains "BoolTensor" (type mask)).
  - apply preserves_comprehension, Hf.
  - destruct (contains "FloatTensor" (type mask)).
    + apply preserves_comprehension, Hf.
    + apply preserves_raise.
Qed.

Lemma preserves_get_decision {X A} `{Mutable A} (proj : State -> X) (mutable : A) :
  preserves proj (_get_decision mutable).
Proof.
  unfold _get_decision. apply preserves_bind; [apply preserves_get_cache|].
  intros cache. destruct (cache !! key mutable).
  - apply preserves_ret.
  - apply preserves_raise.
Qed.

Lemma preserves_select_and_reduce {X C} (proj : State -> X)
    (map_fn : C -> M Tensor) candidates mask policy :
  (forall c, preserves proj (map_fn c)) ->
  preserves proj (select_and_reduce map_fn candidates mask policy).
Proof.
  intros Hf. unfold select_and_reduce.
  apply preserves_bind; [apply preserves_select, Hf|]. intros out.
  apply preserves_bind; [apply preserves_lift|]. intros r.
  apply preserves_ret.
Qed.

(** *** Lookups *)

Lemma get_decision_hit {A} `{Mutable A} (mutable : A) (st : State) mask :
  _cache st !! key mutable = Some mask ->
  _get_decision mutable st = (Ok mask, st).
Proof.
  intros Hl. unfold _get_decision, bind, get_cache. rewrite Hl. reflexivity.
Qed.

Lemma get_decision_miss {A} `{Mutable A} (mutable : A) (st : State) :
  _cache st !! key mutable = None ->
  _get_decision mutable st = (Raise (cache_miss (key mutable)), st).
Proof.
  intros Hl. unfold _get_decision, bind, get_cache. rewrite Hl. reflexivity.
Qed.

Lemma layer_choice_hit (mutable : LayerChoice) inputs (st : State) mask :
  _cache st !! key mutable = Some mask ->
  on_forward_layer_choice mutable inputs st
  = layer_choice_with mutable inputs mask st.
Proof.
  intros Hl. unfold on_forward_layer_choice. unfold bind at 1.
  rewrite (get_decision_hit _ _ _ Hl). reflexivity.
Qed.

Lemma input_choice_hit (mutable : InputChoice) tensor_list (st : State) mask :
  _cache st !! key mutable = Some mask ->
  on_forward_input_choice mutable tensor_list st
  = input_choice_with mutable tensor_list mask st.
Proof.
  intros Hl. unfold on_forward_input_choice. unfold bind at 1.
  rewrite (get_decision_hit _ _ _ Hl). reflexivity.
Qed.

Lemma layer_choice_miss (mutable : LayerChoice) inputs (st : State) :
  _cache st !! key mutable = None ->
  on_forward_layer_choice mutable inputs st
  = (Raise (cache_miss (key mutable)), st).
Proof.
  intros Hl. unfold on_forward_layer_choice. unfold bind at 1.
  rewrite (get_decision_miss _ _ Hl). reflexivity.
Qed.

Lemma input_choice_miss (mutable : InputChoice) tensor_list (st : State) :
  _cache st !! key mutable = None ->
  on_forward_input_choice mutable tensor_list st
  = (Raise (cache_miss (key mutable)), st).
Proof.
  intros Hl. unfold on_forward_input_choice. unfold bind at 1.
  rewrite (get_decision_miss _ _ Hl). reflexivity.
Qed.

Lemma reset_ok (st : State) d e' :
  sample_search (env st) = (Ok d, e') ->
  reset st = (Ok tt, mkState d e').
Proof.
  intros Hs. unfold reset, bind, call, set_cache. rewrite Hs. reflexivity.
Qed.
End Cache.

#[export] Hint Resolve preserves_ret preserves_raise preserves_lift
  preserves_get_cache preserves_assert preserves_call preserves_bind
  preserves_comprehension preserves_select preserves_get_decision
  preserves_select_and_reduce : frame.

Section Lifecycle.
Context {T : TorchOps} {Hst : Host}.

(** C6. Before any [reset] the cache is the empty dict of [__init__] and
    both forward callbacks raise the cache-miss error. Once [reset] has
    stored the mapping [d] returned by [sample_search], a mutable whose key
    is in [d] gets its decision back from [_get_decision] and the callback
    goes on with it; a mutable whose key is not in [d] makes the callback
    raise the cache-miss error. *)
Theorem forward_lookup_after_reset :
  (forall (e : Env) (lc : LayerChoice) inputs (ic : InputChoice) tensor_list,
      on_forward_layer_choice lc inputs (Mutator__init__ e)
      = (Raise (cache_miss (key lc)), Mutator__init__ e)
      /\ on_forward_input_choice ic tensor_list (Mutator__init__ e)
         = (Raise (cache_miss (key ic)), Mutator__init__ e))
  /\ (forall (st : State) d e',
        sample_search (env st) = (Ok d, e') ->
        reset st = (Ok tt, mkState d e')
        /\ (forall (lc : LayerChoice) inputs mask,
              d !! key lc = Some mask ->
              _get_decision lc (mkState d e') = (Ok mask, mkState d e')
              /\ on_forward_layer_choice lc inputs (mkState d e')
                 = layer_choice_with lc inputs mask (mkState d e'))
        /\ (forall (ic : InputChoice) tensor_list mask,
              d !! key ic = Some mask ->
              _get_decision ic (mkState d e') = (Ok mask, mkState d e')
              /\ on_forward_input_choice ic tensor_list (mkState d e')
                 = input_choice_with ic tensor_list mask (mkState d e'))
        /\ (forall (lc : LayerChoice) inputs,
              d !! key lc = None ->
              on_forward_layer_choice lc inputs (mkState d e')
              = (Raise (cache_miss (key lc)), mkState d e'))
        /\ (forall (ic : InputChoice) tensor_list,
              d !! key ic = None ->
              on_forward_input_choice ic tensor_list (mkState d e')
              = (Raise (cache_miss (key ic)), mkState d e'))).
Proof.
  split.
  - intros e lc inputs ic tensor_list. split.
    + apply layer_choice_miss. apply lookup_empty.
    + apply input_choice_miss. apply lookup_empty.
  - intros st d e' Hs. split; [exact (reset_ok st d e' Hs)|].
    split; [|split; [|split]].
    + intros lc inputs mask Hl. split.
      * apply get_decision_hit. exact Hl.
      * apply layer_choice_hit. exact Hl.
    + intros ic tensor_list mask Hl. split.
      * apply get_decision_hit. exact Hl.
      * apply input_choice_hit. exact Hl.
    + intros lc inputs Hl. apply layer_choice_miss. exact Hl.
    + intros ic tensor_list Hl. apply input_choice_miss. exact Hl.
Qed.

(** C7. With the mask [mask] cached for the mutable, a forward callback
    whose mask length differs from the number of candidate operations
    (layer choice) or from the declared [n_candidates] (input choice)
    raises the mask-length [AssertionError] at once, the state untouched;
    when the two are equal the assertion passes and the callback is the
    selection and reduction that follow it. *)
Theorem mask_length_assertion (st : State) (mask : Mask) :
  (forall (lc : LayerChoice) inputs,
      _cache st !! key lc = Some mask ->
      (mask_len mask <> Z.of_nat (length (choices lc)) ->
       on_forward_layer_choice lc inputs st
       = (Raise (AssertionError
                   (invalid_mask_msg mask (Z.of_nat (length (choices lc))))), st))
      /\ (mask_len mask = Z.of_nat (length (choices lc)) ->
          on_forward_layer_choice lc inputs st
          = select_and_reduce _map_fn (layer_candidates lc inputs) mask
              (reduction lc) st))
  /\ (forall (ic : InputChoice) tensor_list,
        _cache st !! key ic = Some mask ->
        (mask_len mask <> n_candidates ic ->
         on_forward_input_choice ic tensor_list st
         = (Raise (AssertionError (invalid_mask_msg mask (n_candidates ic))), st))
        /\ (mask_len mask = n_candidates ic ->
            on_forward_input_choice ic tensor_list st
            = select_and_reduce (fun x => ret x) tensor_list mask
                (reduction ic) st)).
Proof.
  split.
  - intros lc inputs Hl. rewrite (layer_choice_hit _ _ _ _ Hl).
    unfold layer_choice_with. split; intros Hlen.
    + apply Z.eqb_neq in Hlen. rewrite Hlen. reflexivity.
    + apply Z.eqb_eq in Hlen. rewrite Hlen. reflexivity.
  - intros ic tensor_list Hl. rewrite (input_choice_hit _ _ _ _ Hl).
    unfold input_choice_with. split; intros Hlen.
    + apply Z.eqb_neq in Hlen. rewrite Hlen. reflexivity.
    + apply Z.eqb_eq in Hlen. rewrite Hlen. reflexivity.
Qed.

(** C9. Only [reset] writes the decision cache: it replaces it by the
    mapping [sample_search] returns (and leaves it when [sample_search]
    raises). [export] returns what [sample_final] returns, the same for
    every content of the cache, and leaves the cache as it was.
    [_get_decision] leaves the whole state as it was, and so does
    [on_forward_input_choice]; [on_forward_layer_choice], which also runs
    the candidate operations, leaves the cache as it was. *)
Theorem cache_written_only_by_reset :
  (forall st : State,
      _cache (snd (reset st))
      = match fst (sample_search (env st)) with
        | Ok d => d
        | Raise _ => _cache st
        end)
  /\ (forall st : State,
        fst (export st) = fst (sample_final (env st))
        /\ _cache (snd (export st)) = _cache st)
  /\ (forall c1 c2 (e : Env),
        fst (export (mkState c1 e)) = fst (export (mkState c2 e))
        /\ env (snd (export (mkState c1 e))) = env (snd (export (mkState c2 e))))
  /\ (forall (A : Type) (MA : Mutable A) (mutable : A) (st : State),
        snd (_get_decision mutable st) = st)
  /\ (forall (lc : LayerChoice) inputs (st : State),
        _cache (snd (on_forward_layer_choice lc inputs st)) = _cache st)
  /\ (forall (ic : InputChoice) tensor_list (st : State),
        snd (on_forward_input_choice ic tensor_list st) = st).
Proof.
  split; [|split; [|split; [|split; [|split]]]].
  - intros st. unfold reset, bind, call, set_cache.
    destruct (sample_search (env st)) as [[d|x] e']; reflexivity.
  - intros st. unfold export, call.
    destruct (sample_final (env st)) as [r e']. split; reflexivity.
  - intros c1 c2 e. unfold export, call. simpl.
    destruct (sample_final e) as [r e']. split; reflexivity.
  - intros A MA mutable st.
    exact (preserves_get_decision (fun s => s) mutable st).
  - intros lc inputs.
    change (preserves _cache (on_forward_layer_choice lc inputs)).
    unfold on_forward_layer_choice, _map_fn. auto 10 with frame.
  - intros ic tensor_list.
    change (preserves (fun s => s) (on_forward_input_choice ic tensor_list)).
    unfold on_forward_input_choice. auto 10 with frame.
Qed.
End Lifecycle.

(** ** The forward callbacks as a whole *)

Section Forward.
Context {T : TorchOps} {Hst : Host}.

(** *** Helpers *)

Lemma select_other {C} (map_fn : C -> M Tensor) candidates mask st :
  bool_tagged mask = false -> float_tagged mask = false ->
  _select_with_mask map_fn candidates mask st
  = (Raise (ValueError "Unrecognized mask"), st).
Proof.
  unfold bool_tagged, float_tagged, _select_with_mask. intros -> ->.
  reflexivity.
Qed.

Lemma select_bool_tag {C} (map_fn : C -> M Tensor) candidates mask st :
  bool_tagged mask = true ->
  _select_with_mask map_fn candidates mask st
  = comprehension (fun y _ => y) map_fn (zip candidates (mask_items mask)) st.
Proof. unfold bool_tagged, _select_with_mask. intros ->. reflexivity. Qed.

Lemma select_float_tag {C} (map_fn : C -> M Tensor) candidates mask st :
  bool_tagged mask = false -> float_tagged mask = true ->
  _select_with_mask map_fn candidates mask st
  = comprehension (fun y m => mul y m) map_fn (zip candidates (mask_items mask)) st.
Proof.
  unfold bool_tagged, float_tagged, _select_with_mask. intros -> ->.
  reflexivity.
Qed.

Lemma for_each_map {A B D} (g : A -> B) (f : B -> M D) (l : list A) st :
  for_each f (map g l) st = for_each (fun a => f (g a)) l st.
Proof.
  revert st. induction l as [|a l IH]; intros st; simpl; [reflexivity|].
  unfold bind. destruct (f (g a) st) as [[d|e] st']; [|reflexivity].
  rewrite IH. reflexivity.
Qed.

Lemma kept_map {A B} (g : A -> B) (candidates : list A) (items : list Scalar) :
  kept (map g candidates) items
  = map (fun p => (g (fst p), snd p)) (kept candidates items).
Proof.
  revert items. induction candidates as [|c cs IH]; intros items.
  - simpl. rewrite !kept_nil_l. reflexivity.
  - destruct items as [|m ms]; [reflexivity|].
    simpl map at 1. rewrite !kept_cons, map_app, IH.
    destruct (truthy m); reflexivity.
Qed.

Lemma selected_map {A B} (g : A -> B) (candidates : list A) (items : list Scalar) :
  selected (map g candidates) items = map g (selected candidates items).
Proof.
  unfold selected. rewrite kept_map, !map_map. reflexivity.
Qed.

Lemma kept_nil_r {C} (candidates : list C) : kept candidates [] = [].
Proof. reflexivity. Qed.

Lemma kept_app {C} (c1 c2 : list C) (i1 i2 : list Scalar) :
  length c1 = length i1 ->
  kept (c1 ++ c2) (i1 ++ i2) = kept c1 i1 ++ kept c2 i2.
Proof.
  revert i1. induction c1 as [|c c1 IH]; intros [|m i1] Hlen;
    try discriminate Hlen.
  - reflexivity.
  - simpl app. rewrite !kept_cons, IH by (simpl in Hlen; congruence).
    rewrite app_assoc. reflexivity.
Qed.

Lemma kept_all_false {C} (candidates : list C) (items : list Scalar) :
  all_false items -> kept candidates items = [].
Proof.
  revert items. induction candidates as [|c cs IH]; intros items Hall.
  - apply kept_nil_l.
  - destruct items as [|m ms]; [reflexivity|].
    rewrite kept_cons, (Hall m) by (left; reflexivity).
    apply IH. intros m' Hin. apply Hall. right. exact Hin.
Qed.

Lemma zip_take_l {A B} (xs : list A) (ys : list B) :
  zip (take (length ys) xs) ys = zip xs ys.
Proof.
  unfold zip. revert ys. induction xs as [|x xs IH]; intros [|y ys]; simpl;
    try reflexivity.
  f_equal. apply IH.
Qed.

(** Selection among tensors that are already there is a pure function. *)
Lemma select_identity (tensor_list : list Tensor) mask st :
  _select_with_mask (fun x => ret x) tensor_list mask st
  = (select_tensors tensor_list mask, st).
Proof.
  unfold select_tensors.
  destruct (bool_tagged mask) eqn:Hb.
  - rewrite select_bool_tag by exact Hb. rewrite comprehension_kept.
    exact (for_each_pure fst _ st).
  - destruct (float_tagged mask) eqn:Hf.
    + rewrite select_float_tag by assumption. rewrite comprehension_kept.
      exact (for_each_pure (fun p => mul (fst p) (snd p)) _ st).
    + rewrite select_other by assumption. reflexivity.
Qed.

Lemma select_run {C} (map_fn : C -> M Tensor) candidates mask st :
  mask_dtype mask = bool_ ->
  _select_with_mask map_fn candidates mask st
  = for_each map_fn (selected candidates (mask_items mask)) st.
Proof.
  intros Hd. rewrite select_bool by exact Hd.
  rewrite comprehension_kept. apply for_each_fst.
Qed.

Lemma layer_choice_keeps_cache (lc : LayerChoice) inputs :
  preserves _cache (on_forward_layer_choice lc inputs).
Proof. unfold on_forward_layer_choice, _map_fn. auto 10 with frame. Qed.

Lemma assert_pass {A} (c : bool) msg (k : M A) st :
  c = true -> bind (assert_ c msg) (fun _ => k) st = k st.
Proof. intros ->. reflexivity. Qed.

Lemma assert_stop {A} (c : bool) msg (k : M A) st :
  c = false -> bind (assert_ c msg) (fun _ => k) st = (Raise (AssertionError msg), st).
Proof. intros ->. reflexivity. Qed.

Lemma input_choice_with_closed (ic : InputChoice) tensor_list mask (st : State) :
  input_choice_with ic tensor_list mask st
  = (input_choice_result ic tensor_list (Some mask), st).
Proof.
  unfold input_choice_with, input_choice_result.
  destruct (mask_len mask =? n_candidates ic) eqn:Hlen.
  - rewrite assert_pass by reflexivity.
    unfold select_and_reduce, bind. rewrite select_identity.
    destruct (select_tensors tensor_list mask) as [out|e]; [|reflexivity].
    unfold lift, ret.
    destruct (_tensor_reduction (reduction ic) out); reflexivity.
  - rewrite assert_stop by reflexivity. reflexivity.
Qed.

Lemma select_and_reduce_ok {C} (map_fn : C -> M Tensor) candidates mask policy
    st v m st' :
  select_and_reduce map_fn candidates mask policy st = (Ok (v, m), st') ->
  m = mask /\ (bool_tagged mask = true \/ float_tagged mask = true).
Proof.
  unfold select_and_reduce, bind. intros Hrun.
  assert (Htag : (bool_tagged mask = true \/ float_tagged mask = true)
                 \/ (bool_tagged mask = false /\ float_tagged mask = false))
    by (destruct (bool_tagged mask), (float_tagged mask); auto).
  destruct Htag as [Htag|[Hb Hf]].
  - destruct (_select_with_mask map_fn candidates mask st) as [[out|e] st1];
      [|discriminate Hrun].
    unfold lift, ret in Hrun.
    destruct (_tensor_reduction policy out); inversion Hrun; subst; auto.
  - rewrite select_other in Hrun by assumption. discriminate Hrun.
Qed.

(** *** The input choice *)

(** X1. [on_forward_input_choice] is a pure function of the cache entry of
    the mutable's key: it never changes the state, and its outcome is the
    cache-miss error, the length [AssertionError], the unrecognized-mask
    error, or the reduction of the tensors the mask keeps (multiplied by
    their weights for a float mask) paired with the mask, in that order of
    precedence. *)
Theorem input_choice_pure (ic : InputChoice) tensor_list (st : State) :
  on_forward_input_choice ic tensor_list st
  = (input_choice_result ic tensor_list (_cache st !! key ic), st).
Proof.
  destruct (_cache st !! key ic) as [mask|] eqn:Hl.
  - rewrite (input_choice_hit _ _ _ _ Hl). apply input_choice_with_closed.
  - rewrite (input_choice_miss _ _ _ Hl). reflexivity.
Qed.

(** X2. An input choice never compares [len(tensor_list)] with anything:
    tensors beyond the length of the cached mask are ignored, the callback
    behaves as on the first [len(mask)] tensors. *)
Theorem input_choice_surplus (ic : InputChoice) tensor_list (st : State) mask :
  _cache st !! key ic = Some mask ->
  on_forward_input_choice ic tensor_list st
  = on_forward_input_choice ic (take (length (mask_items mask)) tensor_list) st.
Proof.
  intros Hl. rewrite !(input_choice_hit _ _ _ _ Hl).
  unfold input_choice_with, select_and_reduce, _select_with_mask.
  rewrite zip_take_l. reflexivity.
Qed.

(** *** The layer choice *)

Lemma layer_choice_with_selected (lc : LayerChoice) inputs (st : State) mask :
  mask_len mask = Z.of_nat (length (choices lc)) ->
  mask_dtype mask = bool_ ->
  layer_choice_with lc inputs mask st
  = reduce_with (reduction lc) mask
      (for_each (run_choice inputs) (selected (choices lc) (mask_items mask))) st.
Proof.
  intros Hlen Hd.
  unfold layer_choice_with. rewrite assert_pass by (apply Z.eqb_eq; exact Hlen).
  unfold select_and_reduce, reduce_with, bind.
  rewrite select_run by exact Hd. unfold layer_candidates.
  rewrite selected_map, for_each_map. reflexivity.
Qed.

(** X3. With a cached boolean mask of the right length, a layer choice calls
    the operations at the true positions on the inputs, in the order of
    [mutable.choices], then reduces their outputs; the other operations are
    not called. An exception of an operation stops the run, and a reduction
    error comes after the operations have run. *)
Theorem layer_choice_bool (lc : LayerChoice) inputs (st : State) mask :
  _cache st !! key lc = Some mask ->
  mask_len mask = Z.of_nat (length (choices lc)) ->
  mask_dtype mask = bool_ ->
  on_forward_layer_choice lc inputs st
  = reduce_with (reduction lc) mask
      (for_each (run_choice inputs) (selected (choices lc) (mask_items mask))) st.
Proof.
  intros Hl Hlen Hd. rewrite (layer_choice_hit _ _ _ _ Hl).
  apply layer_choice_with_selected; assumption.
Qed.

(** X4. With a cached float mask of the right length, a layer choice calls
    the operations whose weight is not zero, in order, multiplies each
    output by its weight as soon as it is there, and reduces the products. *)
Theorem layer_choice_float (lc : LayerChoice) inputs (st : State) mask :
  _cache st !! key lc = Some mask ->
  mask_len mask = Z.of_nat (length (choices lc)) ->
  mask_dtype mask = float32 ->
  on_forward_layer_choice lc inputs st
  = reduce_with (reduction lc) mask
      (for_each (fun p => let* y := run_choice inputs (fst p) in
                          ret (mul y (snd p)))
         (kept (choices lc) (mask_items mask))) st.
Proof.
  intros Hl Hlen Hd. rewrite (layer_choice_hit _ _ _ _ Hl).
  unfold layer_choice_with. rewrite assert_pass by (apply Z.eqb_eq; exact Hlen).
  unfold select_and_reduce, reduce_with, bind.
  rewrite select_float by exact Hd. rewrite comprehension_kept.
  unfold layer_candidates. rewrite kept_map, for_each_map. reflexivity.
Qed.

(** X5. A forward callback that returns hands back the cached decision of
    the mutable's key, and it returns only when that decision has the
    expected length and a type name that contains [BoolTensor] or
    [FloatTensor]; the cache is then what it was (for an input choice, the
    whole state). *)
Theorem forward_returns_cached_mask :
  (forall (lc : LayerChoice) inputs (st : State) v m st',
      on_forward_layer_choice lc inputs st = (Ok (v, m), st') ->
      _cache st !! key lc = Some m
      /\ mask_len m = Z.of_nat (length (choices lc))
      /\ (bool_tagged m = true \/ float_tagged m = true)
      /\ _cache st' = _cache st)
  /\ (forall (ic : InputChoice) tensor_list (st : State) v m st',
        on_forward_input_choice ic tensor_list st = (Ok (v, m), st') ->
        _cache st !! key ic = Some m
        /\ mask_len m = n_candidates ic
        /\ (bool_tagged m = true \/ float_tagged m = true)
        /\ st' = st).
Proof.
  split.
  - intros lc inputs st v m st' Hrun.
    pose proof (layer_choice_keeps_cache lc inputs st) as Hc.
    rewrite Hrun in Hc. simpl in Hc.
    destruct (_cache st !! key lc) as [mask|] eqn:Hl.
    + rewrite (layer_choice_hit _ _ _ _ Hl) in Hrun.
      unfold layer_choice_with in Hrun.
      destruct (mask_len mask =? Z.of_nat (length (choices lc))) eqn:Hlen.
      * rewrite assert_pass in Hrun by reflexivity.
        apply select_and_reduce_ok in Hrun. destruct Hrun as [-> Hd].
        apply Z.eqb_eq in Hlen. auto.
      * rewrite assert_stop in Hrun by reflexivity. discriminate Hrun.
    + rewrite (layer_choice_miss _ _ _ Hl) in Hrun. discriminate Hrun.
  - intros ic tensor_list st v m st' Hrun.
    destruct (_cache st !! key ic) as [mask|] eqn:Hl.
    + rewrite (input_choice_hit _ _ _ _ Hl) in Hrun.
      pose proof (preserves_select_and_reduce (fun s => s)
                    (fun x : Tensor => ret x) tensor_list mask (reduction ic)
                    (fun c => preserves_ret _ c)) as Hp.
      unfold input_choice_with in Hrun.
      destruct (mask_len mask =? n_candidates ic) eqn:Hlen.
      * rewrite assert_pass in Hrun by reflexivity.
        specialize (Hp st). rewrite Hrun in Hp. simpl in Hp.
        apply select_and_reduce_ok in Hrun. destruct Hrun as [-> Hd].
        apply Z.eqb_eq in Hlen. auto.
      * rewrite assert_stop in Hrun by reflexivity. discriminate Hrun.
    + rewrite (input_choice_miss _ _ _ Hl) in Hrun. discriminate Hrun.
Qed.

(** *** Edge cases of the mask *)

Lemma select_nothing {C} (map_fn : C -> M Tensor) candidates mask st :
  mask_dtype mask = bool_ \/ mask_dtype mask = float32 ->
  all_false (mask_items mask) ->
  _select_with_mask map_fn candidates mask st = (Ok [], st).
Proof.
  intros [Hd|Hd] Hall.
  - rewrite select_bool by exact Hd.
    rewrite comprehension_kept, kept_all_false by exact Hall. reflexivity.
  - rewrite select_float by exact Hd.
    rewrite comprehension_kept, kept_all_false by exact Hall. reflexivity.
Qed.

(** X6. A boolean or float mask without a true (non-zero) entry selects
    nothing: [_select_with_mask] returns the empty list without calling
    [map_fn] at all, and a layer choice with such a mask calls no operation,
    leaves the state as it was and returns [None] (the empty list under the
    policy [none]), also under a policy name that is not known. *)
Theorem nothing_selected (mask : Mask) :
  mask_dtype mask = bool_ \/ mask_dtype mask = float32 ->
  all_false (mask_items mask) ->
  (forall (C : Type) (map_fn : C -> M Tensor) candidates st,
      _select_with_mask map_fn candidates mask st = (Ok [], st))
  /\ (forall (lc : LayerChoice) inputs (st : State),
        _cache st !! key lc = Some mask ->
        mask_len mask = Z.of_nat (length (choices lc)) ->
        on_forward_layer_choice lc inputs st
        = (Ok (if String.eqb (reduction lc) "none" then VList [] else VNone,
               mask), st)).
Proof.
  intros Hd Hall. split.
  - intros C map_fn candidates st. apply select_nothing; assumption.
  - intros lc inputs st Hl Hlen. rewrite (layer_choice_hit _ _ _ _ Hl).
    unfold layer_choice_with. rewrite assert_pass by (apply Z.eqb_eq; exact Hlen).
    unfold select_and_reduce, bind.
    rewrite select_nothing by assumption.
    unfold lift, ret, _tensor_reduction.
    destruct (String.eqb (reduction lc) "none"); reflexivity.
Qed.

(** X7. A one-hot boolean mask: when exactly one entry of the cached mask is
    true, the layer choice calls the operation at that position and no
    other, and returns its output as it is, unreduced, under every policy
    other than [none]; an exception of that operation is the exception of
    the callback. *)
Theorem layer_choice_one_hot (lc : LayerChoice) inputs (st : State) mask
    before m after ops_before o ops_after :
  _cache st !! key lc = Some mask ->
  mask_dtype mask = bool_ ->
  mask_items mask = before ++ m :: after ->
  choices lc = ops_before ++ o :: ops_after ->
  length ops_before = length before ->
  length ops_after = length after ->
  all_false before -> all_false after -> truthy m = true ->
  reduction lc <> "none" ->
  on_forward_layer_choice lc inputs st
  = match apply_op o inputs (env st) with
    | (Ok y, e') => (Ok (VTensor y, mask), mkState (_cache st) e')
    | (Raise x, e') => (Raise x, mkState (_cache st) e')
    end.
Proof.
  intros Hl Hd Hitems Hops Hlb Hla Hfb Hfa Hm Hpol.
  rewrite (layer_choice_hit _ _ _ _ Hl).
  rewrite layer_choice_with_selected; [|
    unfold mask_len; rewrite Hitems, Hops, !length_app; simpl;
    rewrite Hlb, Hla; reflexivity | exact Hd].
  rewrite Hitems, Hops. unfold selected.
  rewrite kept_app by exact Hlb.
  rewrite kept_cons, Hm, !kept_all_false by assumption.
  simpl. unfold reduce_with, bind, run_choice, call.
  destruct (apply_op o inputs (env st)) as [[y|x] e']; [|reflexivity].
  unfold ret, lift, _tensor_reduction. simpl in Hpol.
  rewrite (proj2 (String.eqb_neq _ _) Hpol). reflexivity.
Qed.

(** X8. A cached mask of the right length whose type name contains neither
    [BoolTensor] nor [FloatTensor] makes a layer choice raise
    [ValueError("Unrecognized mask")] before any operation is called: the
    state is untouched, and the reduction policy, known or not, plays no
    part. *)
Theorem layer_choice_unrecognized (lc : LayerChoice) inputs (st : State) mask :
  _cache st !! key lc = Some mask ->
  mask_len mask = Z.of_nat (length (choices lc)) ->
  bool_tagged mask = false ->
  float_tagged mask = false ->
  on_forward_layer_choice lc inputs st
  = (Raise (ValueError "Unrecognized mask"), st).
Proof.
  intros Hl Hlen Hb Hf. rewrite (layer_choice_hit _ _ _ _ Hl).
  unfold layer_choice_with. rewrite assert_pass by (apply Z.eqb_eq; exact Hlen).
  unfold select_and_reduce, bind. rewrite select_other by assumption.
  reflexivity.
Qed.

(** *** Which candidates survive *)

Lemma selected_sublist {C} (candidates : list C) (items : list Scalar) :
  sublist (selected candidates items) candidates.
Proof.
  unfold selected. revert items.
  induction candidates as [|c cs IH]; intros items.
  - rewrite kept_nil_l. constructor.
  - destruct items as [|m ms]; [apply sublist_nil_l|].
    rewrite kept_cons. destruct (truthy m); simpl.
    + apply sublist_skip, IH.
    + apply sublist_cons, IH.
Qed.

Lemma kept_positions {C} (candidates : list C) (items : list Scalar) c m :
  In (c, m) (kept candidates items)
  <-> exists i : nat,
        candidates !! i = Some c /\ items !! i = Some m /\ truthy m = true.
Proof.
  rewrite <- list_elem_of_In. unfold kept. rewrite list_elem_of_omap. split.
  - intros (i & _ & Hi). exists i.
    destruct (candidates !! i) as [c'|]; [|discriminate Hi].
    destruct (items !! i) as [m'|]; [|discriminate Hi].
    destruct (truthy m') eqn:Hm; [|discriminate Hi].
    inversion Hi; subst. auto.
  - intros (i & Hc & Hi & Hm). exists i. split.
    + apply elem_of_seq. apply lookup_lt_Some in Hi. simpl. split; [lia|exact Hi].
    + rewrite Hc, Hi, Hm. reflexivity.
Qed.

(** X9. Which outputs a boolean mask lets through, for a [map_fn] that only
    computes: the outputs are those of the surviving candidates, these form
    a subsequence of the candidate list (same relative order, nothing
    repeated or invented), and a candidate survives exactly when it stands
    at a position where the mask has a true entry. *)
Theorem select_with_mask_positions {C} (f : C -> Tensor) (candidates : list C)
    (mask : Mask) (st : State) :
  mask_dtype mask = bool_ ->
  _select_with_mask (pure_fn f) candidates mask st
  = (Ok (map f (selected candidates (mask_items mask))), st)
  /\ sublist (selected candidates (mask_items mask)) candidates
  /\ (forall c,
        In c (selected candidates (mask_items mask))
        <-> exists (i : nat) m,
              candidates !! i = Some c /\ mask_items mask !! i = Some m
              /\ truthy m = true).
Proof.
  intros Hd. split; [|split].
  - rewrite select_run by exact Hd. apply for_each_pure.
  - apply selected_sublist.
  - intros c. unfold selected. rewrite in_map_iff. split.
    + intros ([c' m] & Hc & Hin). simpl in Hc. subst c'.
      apply kept_positions in Hin. destruct Hin as (i & Hi). eauto.
    + intros (i & m & Hi). exists (c, m). split; [reflexivity|].
      apply kept_positions. eauto.
Qed.
End Forward.

(** ** The outcomes of a reduction *)

Section ReductionOutcomes.
Context {T : TorchOps}.


(** X11. What [_tensor_reduction] returns: the list itself exactly under the
    policy [none], [None] only for an empty list, and otherwise a tensor. It
    never returns an integer or a float: the integer 0 from which [sum]
    starts does not reach the caller. *)
Theorem tensor_reduction_returns (policy : string) (tensor_list : list Tensor)
    (v : Value) :
  _tensor_reduction policy tensor_list = Ok v ->
  (policy = "none" /\ v = VList tensor_list)
  \/ (policy <> "none" /\ tensor_list = [] /\ v = VNone)
  \/ (policy <> "none" /\ tensor_list <> [] /\ exists t, v = VTensor t).
Proof.
  unfold _tensor_reduction.
  destruct (String.eqb_spec policy "none") as [->|Hn].
  { intros Hr. inversion Hr. left. auto. }
  destruct tensor_list as [|t1 [|t2 rest]].
  { intros Hr. inversion Hr. right. left. auto. }
  { intros Hr. inversion Hr. right. right. split; [exact Hn|].
    split; [discriminate|]. eauto. }
  intros Hr. right. right. split; [exact Hn|]. split; [discriminate|].
  rewrite py_sum_cons in Hr.
  destruct (String.eqb policy "sum"); [inversion Hr; eauto|].
  destruct (String.eqb policy "mean"); [inversion Hr; eauto|].
  destruct (String.eqb policy "concat"); [inversion Hr; eauto|].
  discriminate Hr.
Qed.
End ReductionOutcomes.

(** ** A failing extension point *)

Section Failures.
Context {T : TorchOps} {Hst : Host}.

Lemma state_eta (st : State) : mkState (_cache st) (env st) = st.
Proof. destruct st. reflexivity. Qed.

(** X12. When [sample_search] raises, [reset] raises the same exception and
    assigns nothing: the decisions of the previous [reset] stay in the
    cache, and an input choice answers after the failed [reset] as it did
    before. *)
Theorem reset_failure (st : State) x e' :
  sample_search (env st) = (Raise x, e') ->
  reset st = (Raise x, mkState (_cache st) e')
  /\ (forall (ic : InputChoice) tensor_list,
        fst (on_forward_input_choice ic tensor_list (snd (reset st)))
        = fst (on_forward_input_choice ic tensor_list st)).
Proof.
  intros Hs.
  assert (Hr : reset st = (Raise x, mkState (_cache st) e')).
  { unfold reset, bind, call. rewrite Hs. reflexivity. }
  split; [exact Hr|].
  intros ic tensor_list. rewrite Hr. simpl snd.
  destruct (_cache st !! key ic) as [mask|] eqn:Hl.
  - rewrite (input_choice_hit _ _ (mkState (_cache st) e') mask) by exact Hl.
    rewrite (input_choice_hit _ _ st mask) by exact Hl.
    rewrite !input_choice_with_closed. reflexivity.
  - rewrite (input_choice_miss _ _ (mkState (_cache st) e')) by exact Hl.
    rewrite (input_choice_miss _ _ st) by exact Hl. reflexivity.
Qed.

(** X13. A mutator that keeps the [sample_search] and [sample_final] of the
    class [Mutator] cannot be reset or exported: both calls raise
    [NotImplementedError] and leave the state as it was. *)
Theorem extension_points_not_overridden (st : State) :
  sample_search (env st) = Mutator_sample_search (env st) ->
  sample_final (env st) = Mutator_sample_final (env st) ->
  reset st = (Raise NotImplementedError, st)
  /\ export st = (Raise NotImplementedError, st).
Proof.
  intros Hs Hf. unfold reset, export, bind, call.
  rewrite Hs, Hf. unfold Mutator_sample_search, Mutator_sample_final.
  rewrite state_eta. split; reflexivity.
Qed.
End Failures.

(** * The methods on the integer instance *)

Import IntTorch.

(** A layer choice with three operations under the mask [1, 0, 1]: the
    first and the third run, the second (which would raise) does not, and
    the two outputs are summed entry by entry. *)
Example layer_choice_run :
  on_forward_layer_choice layer [[1; 2]] sampled
  = (Ok (VTensor [7; 14], bool_mask [1; 0; 1]), mkState searched [Times 2; Times 5]).
Proof. vm_compute. reflexivity. Qed.

(** An input choice under the weights [0, 3]: only the second tensor
    survives, multiplied by 3, and a single survivor is returned as it is. *)
Example input_choice_run :
  on_forward_input_choice input [[1; 2]; [3; 4]] sampled
  = (Ok (VTensor [9; 12], float_mask [0; 3]), sampled).
Proof. vm_compute. reflexivity. Qed.

Example reduction_runs :
  _tensor_reduction "sum" [[1; 2]; [10; 20]; [100; 200]] = Ok (VTensor [111; 222])
  /\ _tensor_reduction "mean" [[1; 2]; [10; 20]; [100; 200]] = Ok (VTensor [37; 74])
  /\ _tensor_reduction "concat" [[1; 2]; [10; 20]] = Ok (VTensor [1; 2; 10; 20]).
Proof. repeat split; reflexivity. Qed.

Lemma select_with_mask_bool_witness :
  mask_dtype (bool_mask [1; 0; 1]) = bool_
  /\ length (mask_items (bool_mask [1; 0; 1]))
     = length (layer_candidates layer [[1; 2]])
  /\ _select_with_mask _map_fn (layer_candidates layer [[1; 2]])
       (bool_mask [1; 0; 1]) sampled
     = for_each _map_fn
         (selected (layer_candidates layer [[1; 2]])
            (mask_items (bool_mask [1; 0; 1]))) sampled.
Proof.
  split; [reflexivity|]. split; [reflexivity|].
  exact (proj1 (select_with_mask_bool _map_fn (layer_candidates layer [[1; 2]])
                  (bool_mask [1; 0; 1]) eq_refl eq_refl) sampled).
Defined.

Lemma select_with_mask_float_witness :
  mask_dtype (float_mask [0; 3]) = float32
  /\ length (mask_items (float_mask [0; 3])) = length [[1; 2]; [3; 4]]
  /\ _select_with_mask (pure_fn (fun t : list Z => t)) [[1; 2]; [3; 4]]
       (float_mask [0; 3]) sampled
     = (Ok (map (fun p => mul (fst p) (snd p))
              (kept [[1; 2]; [3; 4]] (mask_items (float_mask [0; 3])))), sampled).
Proof.
  split; [reflexivity|]. split; [reflexivity|].
  exact (proj1 (proj2 (select_with_mask_float (pure_fn (fun t : list Z => t))
                         [[1; 2]; [3; 4]] (float_mask [0; 3]) eq_refl eq_refl))
           (fun t => t) sampled).
Defined.



Lemma select_with_mask_no_length_check_witness :
  (mask_dtype (float_mask [2; 0; 5; 7]) = bool_
   \/ mask_dtype (float_mask [2; 0; 5; 7]) = float32)
  /\ mask_dtype (float_mask [2; 0; 5; 7]) = float32
  /\ _select_with_mask (pure_fn (fun t : list Z => t)) [[1; 2]; [3; 4]]
       (float_mask [2; 0; 5; 7]) sampled
     = _select_with_mask (pure_fn (fun t : list Z => t))
         (take 2 [[1; 2]; [3; 4]]) (truncate 2 (float_mask [2; 0; 5; 7])) sampled
  /\ _select_with_mask (pure_fn (fun t : list Z => t)) [[1; 2]; [3; 4]]
       (float_mask [2; 0; 5; 7]) sampled
     = (Ok (map (fun p => mul (fst p) (snd p))
              (kept (take 2 [[1; 2]; [3; 4]])
                 (take 2 (mask_items (float_mask [2; 0; 5; 7]))))), sampled)
  /\ map (fun p : list Z * Z => mul (fst p) (snd p))
       (kept (take 2 [[1; 2]; [3; 4]])
          (take 2 (mask_items (float_mask [2; 0; 5; 7]))))
     = [[2; 4]].
Proof.
  split; [right; reflexivity|]. split; [reflexivity|].
  destruct (@select_with_mask_no_length_check ops host (list Z)
              (@pure_fn ops host (list Z) (fun t => t))
              [[1; 2]; [3; 4]] (float_mask [2; 0; 5; 7]) (or_intror eq_refl))
    as (Hcut & _ & _ & Hfloat).
  split; [exact (Hcut sampled)|].
  split; [exact (proj2 (Hfloat eq_refl) (fun t => t) sampled)|reflexivity].
Defined.

(** The policy [none] returns the list itself, also when it is empty or has
    one element: not [None], not the element. *)
Lemma tensor_reduction_few_counterexample :
  ~ (forall policy : string,
        _tensor_reduction policy (@nil (list Z)) = Ok VNone
        /\ forall t : list Z, _tensor_reduction policy [t] = Ok (VTensor t)).
Proof.
  intros Hall. destruct (Hall "none") as [Hnil _]. discriminate Hnil.
Qed.

Lemma tensor_reduction_few_witness :
  "sum" <> "none"
  /\ _tensor_reduction "sum" (@nil (list Z)) = Ok VNone
  /\ _tensor_reduction "sum" [[1; 2]] = Ok (VTensor [1; 2]).
Proof.
  split; [discriminate|].
  destruct (proj1 (tensor_reduction_few "sum")) as [Hnil Hone]; [discriminate|].
  split; [exact Hnil|exact (Hone [1; 2])].
Defined.

Lemma max_not_known : ~ known_policy "max".
Proof. intros [Hk|[Hk|[Hk|Hk]]]; discriminate Hk. Qed.

(** An unknown policy name raises nothing on an empty list. *)
Lemma tensor_reduction_unknown_policy_counterexample :
  ~ (forall (policy : string) (tensor_list : list (list Z)),
        ~ known_policy policy ->
        _tensor_reduction policy tensor_list = Raise (unrecognized_policy policy)).
Proof.
  intros Hall. specialize (Hall "max" [] max_not_known). discriminate Hall.
Qed.

Lemma tensor_reduction_unknown_policy_witness :
  ~ known_policy "max"
  /\ _tensor_reduction "max" [[1; 2]; [3; 4]] = Raise (unrecognized_policy "max")
  /\ _tensor_reduction "max" (@nil (list Z)) = Ok VNone.
Proof.
  split; [exact max_not_known|].
  destruct (tensor_reduction_unknown_policy "max" max_not_known) as (Hmany & Hnil & _).
  split; [exact (Hmany [1; 2] [3; 4] [])|exact Hnil].
Defined.

Lemma forward_lookup_after_reset_witness :
  sample_search (env fresh) = (Ok searched, [])
  /\ reset fresh = (Ok tt, sampled)
  /\ _get_decision layer sampled = (Ok (bool_mask [1; 0; 1]), sampled)
  /\ on_forward_input_choice absent [[1; 2]; [3; 4]] sampled
     = (Raise (cache_miss "nowhere"), sampled).
Proof.
  split; [reflexivity|].
  destruct (proj2 forward_lookup_after_reset fresh searched [] eq_refl)
    as (Hreset & Hlayer & _ & _ & Hmiss).
  split; [exact Hreset|]. split.
  - exact (proj1 (Hlayer layer [] (bool_mask [1; 0; 1]) eq_refl)).
  - exact (Hmiss absent [[1; 2]; [3; 4]] eq_refl).
Defined.

Lemma mask_length_assertion_witness :
  _cache sampled !! key input = Some (float_mask [0; 3])
  /\ mask_len (float_mask [0; 3]) = n_candidates input
  /\ on_forward_input_choice input [[1; 2]; [3; 4]] sampled
     = select_and_reduce (fun x => ret x) [[1; 2]; [3; 4]] (float_mask [0; 3])
         (reduction input) sampled
  /\ _cache sampled !! key short_layer
     = Some (bool_mask [1; 0; 1])
  /\ mask_len (bool_mask [1; 0; 1]) <> Z.of_nat (length (choices short_layer))
  /\ on_forward_layer_choice short_layer [[1; 2]] sampled
     = (Raise (AssertionError (invalid_mask_msg (bool_mask [1; 0; 1]) 1)), sampled).
Proof.
  split; [reflexivity|]. split; [reflexivity|]. split.
  - exact (proj2 (proj2 (mask_length_assertion sampled (float_mask [0; 3]))
                    input [[1; 2]; [3; 4]] eq_refl) eq_refl).
  - split; [reflexivity|]. split; [discriminate|].
    apply (proj1 (mask_length_assertion sampled (bool_mask [1; 0; 1]))
             short_layer [[1; 2]] eq_refl).
    discriminate.
Defined.

(** ** The forward callbacks on the instance *)

(** Under the weights [2, 0, 3] the first and third operation run and their
    outputs are scaled before the sum. *)
Example layer_choice_weighted_run :
  on_forward_layer_choice layer [[1; 2]] weighed
  = (Ok (VTensor [19; 38], float_mask [2; 0; 3]),
     mkState (_cache weighed) [Times 2; Times 5]).
Proof. vm_compute. reflexivity. Qed.

Lemma input_choice_surplus_witness :
  _cache sampled !! key input = Some (float_mask [0; 3])
  /\ on_forward_input_choice input [[1; 2]; [3; 4]; [5; 6]] sampled
     = on_forward_input_choice input
         (take (length (mask_items (float_mask [0; 3]))) [[1; 2]; [3; 4]; [5; 6]])
         sampled.
Proof.
  split; [reflexivity|].
  exact (input_choice_surplus input [[1; 2]; [3; 4]; [5; 6]] sampled
           (float_mask [0; 3]) eq_refl).
Defined.

Lemma layer_choice_bool_witness :
  _cache sampled !! key layer = Some (bool_mask [1; 0; 1])
  /\ mask_len (bool_mask [1; 0; 1]) = Z.of_nat (length (choices layer))
  /\ mask_dtype (bool_mask [1; 0; 1]) = bool_
  /\ on_forward_layer_choice layer [[1; 2]] sampled
     = reduce_with (reduction layer) (bool_mask [1; 0; 1])
         (for_each (run_choice [[1; 2]])
            (selected (choices layer) (mask_items (bool_mask [1; 0; 1])))) sampled.
Proof.
  split; [reflexivity|]. split; [reflexivity|]. split; [reflexivity|].
  exact (layer_choice_bool layer [[1; 2]] sampled (bool_mask [1; 0; 1])
           eq_refl eq_refl eq_refl).
Defined.

Lemma layer_choice_float_witness :
  _cache weighed !! key layer = Some (float_mask [2; 0; 3])
  /\ mask_len (float_mask [2; 0; 3]) = Z.of_nat (length (choices layer))
  /\ mask_dtype (float_mask [2; 0; 3]) = float32
  /\ on_forward_layer_choice layer [[1; 2]] weighed
     = reduce_with (reduction layer) (float_mask [2; 0; 3])
         (for_each (fun p => let* y := run_choice [[1; 2]] (fst p) in
                             ret (mul y (snd p)))
            (kept (choices layer) (mask_items (float_mask [2; 0; 3])))) weighed.
Proof.
  split; [reflexivity|]. split; [reflexivity|]. split; [reflexivity|].
  exact (layer_choice_float layer [[1; 2]] weighed (float_mask [2; 0; 3])
           eq_refl eq_refl eq_refl).
Defined.

Lemma forward_returns_cached_mask_witness :
  on_forward_layer_choice layer [[1; 2]] sampled
  = (Ok (VTensor [7; 14], bool_mask [1; 0; 1]), mkState searched [Times 2; Times 5])
  /\ _cache sampled !! key layer = Some (bool_mask [1; 0; 1])
  /\ mask_len (bool_mask [1; 0; 1]) = Z.of_nat (length (choices layer)).
Proof.
  assert (Hrun : on_forward_layer_choice layer [[1; 2]] sampled
                 = (Ok (VTensor [7; 14], bool_mask [1; 0; 1]),
                    mkState searched [Times 2; Times 5]))
    by (vm_compute; reflexivity).
  split; [exact Hrun|].
  destruct (proj1 forward_returns_cached_mask layer [[1; 2]] sampled _ _ _ Hrun)
    as (Hl & Hlen & _).
  split; [exact Hl|exact Hlen].
Defined.

Lemma zeros_all_false : all_false (mask_items (bool_mask [0; 0; 0])).
Proof.
  intros m Hin. simpl in Hin.
  destruct Hin as [<-|[<-|[<-|[]]]]; reflexivity.
Qed.

Lemma nothing_selected_witness :
  (mask_dtype (bool_mask [0; 0; 0]) = bool_
   \/ mask_dtype (bool_mask [0; 0; 0]) = float32)
  /\ all_false (mask_items (bool_mask [0; 0; 0]))
  /\ _cache unselected !! key layer = Some (bool_mask [0; 0; 0])
  /\ mask_len (bool_mask [0; 0; 0]) = Z.of_nat (length (choices layer))
  /\ on_forward_layer_choice layer [[1; 2]] unselected
     = (Ok (if String.eqb (reduction layer) "none" then VList [] else VNone,
            bool_mask [0; 0; 0]), unselected).
Proof.
  split; [left; reflexivity|]. split; [exact zeros_all_false|].
  split; [reflexivity|]. split; [reflexivity|].
  exact (proj2 (nothing_selected (bool_mask [0; 0; 0]) (or_introl eq_refl)
                  zeros_all_false)
           layer [[1; 2]] unselected eq_refl eq_refl).
Defined.

Lemma zero_all_false : all_false [0].
Proof. intros m [<-|[]]. reflexivity. Qed.

Lemma concat_not_none : reduction middle_layer <> "none".
Proof. discriminate. Qed.

Lemma layer_choice_one_hot_witness :
  _cache exported !! key middle_layer = Some (bool_mask [0; 1; 0])
  /\ truthy (1 : Scalar) = true
  /\ reduction middle_layer <> "none"
  /\ on_forward_layer_choice middle_layer [[1; 2]] exported
     = match apply_op (Times 3) [[1; 2]] (env exported) with
       | (Ok y, e') => (Ok (VTensor y, bool_mask [0; 1; 0]),
                        mkState (_cache exported) e')
       | (Raise x, e') => (Raise x, mkState (_cache exported) e')
       end.
Proof.
  split; [reflexivity|]. split; [reflexivity|]. split; [exact concat_not_none|].
  exact (layer_choice_one_hot middle_layer [[1; 2]] exported (bool_mask [0; 1; 0])
           [0] 1 [0] [Broken] (Times 3) [Broken]
           eq_refl eq_refl eq_refl eq_refl eq_refl eq_refl
           zero_all_false zero_all_false eq_refl concat_not_none).
Defined.

Lemma layer_choice_unrecognized_witness :
  _cache mistyped !! key layer = Some (long_mask [1; 0; 1])
  /\ mask_len (long_mask [1; 0; 1]) = Z.of_nat (length (choices layer))
  /\ bool_tagged (long_mask [1; 0; 1]) = false
  /\ float_tagged (long_mask [1; 0; 1]) = false
  /\ on_forward_layer_choice layer [[1; 2]] mistyped
     = (Raise (ValueError "Unrecognized mask"), mistyped).
Proof.
  split; [reflexivity|]. split; [reflexivity|].
  split; [reflexivity|]. split; [reflexivity|].
  exact (layer_choice_unrecognized layer [[1; 2]] mistyped (long_mask [1; 0; 1])
           eq_refl eq_refl eq_refl eq_refl).
Defined.

Lemma select_with_mask_positions_witness :
  mask_dtype (bool_mask [1; 0; 1]) = bool_
  /\ _select_with_mask (pure_fn (fun t : list Z => t)) [[1; 2]; [3; 4]; [5; 6]]
       (bool_mask [1; 0; 1]) sampled
     = (Ok (map (fun t : list Z => t)
              (selected [[1; 2]; [3; 4]; [5; 6]] (mask_items (bool_mask [1; 0; 1])))),
        sampled).
Proof.
  split; [reflexivity|].
  exact (proj1 (select_with_mask_positions (fun t : list Z => t)
                  [[1; 2]; [3; 4]; [5; 6]] (bool_mask [1; 0; 1]) sampled eq_refl)).
Defined.

Lemma tensor_reduction_returns_witness :
  _tensor_reduction "mean" [[2; 4]; [4; 8]] = Ok (VTensor [3; 6])
  /\ (("mean" = "none" /\ VTensor [3; 6] = VList [[2; 4]; [4; 8]])
      \/ ("mean" <> "none" /\ [[2; 4]; [4; 8]] = [] /\ VTensor [3; 6] = VNone)
      \/ ("mean" <> "none" /\ [[2; 4]; [4; 8]] <> []
          /\ exists t : list Z, VTensor [3; 6] = VTensor t)).
Proof.
  split; [reflexivity|].
  exact (tensor_reduction_returns "mean" [[2; 4]; [4; 8]] (VTensor [3; 6]) eq_refl).
Defined.

Lemma reset_failure_witness :
  @sample_search ops base_host (@env ops base_host stale)
  = (Raise NotImplementedError, [])
  /\ @reset ops base_host stale
     = (Raise NotImplementedError,
        @mkState ops base_host (@_cache ops base_host stale) []).
Proof.
  split; [reflexivity|].
  exact (proj1 (@reset_failure ops base_host stale NotImplementedError [] eq_refl)).
Defined.

Lemma extension_points_not_overridden_witness :
  @sample_search ops base_host (@env ops base_host stale)
  = Mutator_sample_search (@env ops base_host stale)
  /\ @sample_final ops base_host (@env ops base_host stale)
     = Mutator_sample_final (@env ops base_host stale)
  /\ @reset ops base_host stale = (Raise NotImplementedError, stale)
  /\ @export ops base_host stale = (Raise NotImplementedError, stale).
Proof.
  split; [reflexivity|]. split; [reflexivity|].
  exact (@extension_points_not_overridden ops base_host stale eq_refl eq_refl).
Defined.


